(** * Conversion of propositional formulas to restricted operator sets

    A shallow embedding of [propositions/operators.py]: the five converters
    [to_not_and_or], [to_not_and], [to_nand], [to_implies_not] and
    [to_implies_false], together with the parts of the formula class and of
    the evaluator that they rely on. *)

From Stdlib Require Import Ascii String.
From stdpp Require Import base strings list gmap.

Local Open Scope string_scope.

(** ** Formulas *)

(** Modelled from the spec: the class [Formula] of [propositions/syntax.py].
    A formula object carries a [root] label and, depending on how it was
    built, the attributes [first] and [second]; the three constructors are
    the three ways of calling [Formula(...)].  Labels are strings, as the
    converters compare them. *)
Inductive Formula : Type :=
| Nullary (root : string)
| Unary (root : string) (first : Formula)
| Binary (root : string) (first second : Formula).

Definition root (formula : Formula) : string :=
  match formula with
  | Nullary r | Unary r _ | Binary r _ _ => r
  end.

(** ** Exceptions

    What a converter can raise: the trailing [assert] of each function, and
    the attribute lookup [formula.first] / [formula.second] on an object that
    was built without it. *)

Inductive exception : Type := AssertionError | AttributeError.

Inductive result (A : Type) : Type :=
| Return (a : A)
| Raise (e : exception).
Arguments Return {A} a.
Arguments Raise {A} e.

Global Instance result_bind : MBind result := λ A B k c,
  match c with
  | Return a => k a
  | Raise e => Raise e
  end.

(** ** Classification of root labels *)

(** Modelled from the spec: [is_constant], [is_unary] and [is_binary] of
    [propositions/syntax.py], the classification predicates on root labels:
    the constants are T and F, the only unary operator is negation, and the
    binary operators are AND, OR, IMPLIES, XOR, IFF, NAND and NOR. *)
Definition is_constant (s : string) : bool := String.eqb s "T" || String.eqb s "F".
Definition is_unary (s : string) : bool := String.eqb s "~".
Definition binary_operators : list string := ["&"; "|"; "->"; "+"; "<->"; "-&"; "-|"].
Definition is_binary (s : string) : bool := existsb (String.eqb s) binary_operators.

(** Modelled from the spec: [is_variable] of [propositions/syntax.py].  The
    spec fixes no syntax for variable names, so the predicate is taken as an
    interface: the default name 'p' is a variable name, and no constant or
    operator symbol is one. *)
Class VariableNames : Type := {
  is_variable : string → bool;
  is_variable_default : is_variable "p" = true;
  is_variable_constant : ∀ s, is_constant s = true → is_variable s = false;
  is_variable_unary : ∀ s, is_unary s = true → is_variable s = false;
  is_variable_binary : ∀ s, is_binary s = true → is_variable s = false
}.

(** An instance of the interface: a letter from p to z followed by decimal
    digits. *)
Definition is_digit (c : ascii) : bool :=
  (48 <=? nat_of_ascii c)%nat && (nat_of_ascii c <=? 57)%nat.

Definition letter_then_digits (s : string) : bool :=
  match s with
  | EmptyString => false
  | String c rest =>
      (112 <=? nat_of_ascii c)%nat && (nat_of_ascii c <=? 122)%nat
      && forallb is_digit (list_ascii_of_string rest)
  end.

(** ** Helpers local to the converters *)

Module Nand.
Definition nand (a b : Formula) : Formula := Binary "-&" a b.
End Nand.

Module ImpliesNot.
Definition make_or (a b : Formula) : Formula := Binary "->" (Unary "~" a) b.
Definition make_and (a b : Formula) : Formula :=
  Unary "~" (Binary "->" a (Unary "~" b)).
End ImpliesNot.

Module ImpliesFalse.
Definition make_not (a : Formula) : Formula := Binary "->" a (Nullary "F").
Definition make_or (a b : Formula) : Formula := Binary "->" (make_not a) b.
Definition make_and (a b : Formula) : Formula :=
  make_not (Binary "->" a (make_not b)).
End ImpliesFalse.

(** ** The five target sets *)

Inductive basis : Type := NOT_AND_OR | NOT_AND | NAND | IMPLIES_NOT | IMPLIES_FALSE.

(** The operators and constants that each converter may leave in its
    result, as its docstring lists them. *)
Definition basis_operators (B : basis) : list string :=
  match B with
  | NOT_AND_OR => ["~"; "&"; "|"]
  | NOT_AND => ["~"; "&"]
  | NAND => ["-&"]
  | IMPLIES_NOT => ["->"; "~"]
  | IMPLIES_FALSE => ["->"; "F"]
  end.

(** ** Measures of a formula tree *)

(** The number of nodes of the tree. *)
Fixpoint nodes (formula : Formula) : nat :=
  match formula with
  | Nullary _ => 1
  | Unary _ a => S (nodes a)
  | Binary _ a b => S (nodes a + nodes b)
  end.

(** The length of the longest path from the root to a leaf. *)
Fixpoint height (formula : Formula) : nat :=
  match formula with
  | Nullary _ => 0
  | Unary _ a => S (height a)
  | Binary _ a b => S (Nat.max (height a) (height b))
  end.

(** Python's [next(it, default)] on an iterator that yields the elements of
    [it] in order. *)
Definition next (it : list string) (default : string) : string :=
  match it with
  | [] => default
  | x :: _ => x
  end.

Section Operators.
Context `{VariableNames}.

(** The order in which Python iterates over a set of strings, [iter(s)].
    It is not specified; the facts below assume only that every element is
    visited once. *)
Variable iter : gset string → list string.

(** Modelled from the spec: the method [Formula.variables] of
    [propositions/syntax.py], the set of distinct variable names appearing
    in the formula. *)
Fixpoint variables (formula : Formula) : gset string :=
  match formula with
  | Nullary r => if is_variable r then {[ r ]} else ∅
  | Unary _ a => variables a
  | Binary _ a b => variables a ∪ variables b
  end.

(** Modelled from the spec: the invariant of the class [Formula], which
    its constructor enforces.  A variable or a constant has no operand,
    negation has one, and each binary operator has two. *)
Fixpoint well_formed (formula : Formula) : bool :=
  match formula with
  | Nullary r => is_variable r || is_constant r
  | Unary r a => is_unary r && well_formed a
  | Binary r a b => is_binary r && well_formed a && well_formed b
  end.

(** ** The converters

    Each converter follows its source line by line.  The attribute lookups
    [formula.first] and [formula.second] are the matches on [formula], which
    raise [AttributeError] on an object built without the attribute; the
    chain of comparisons of [formula.root] ends with the [assert] on the last
    operator, which raises [AssertionError] when it fails. *)

Fixpoint to_not_and_or (formula : Formula) : result Formula :=
  if is_variable (root formula) then Return (Nullary (root formula))
  else
    let v := next (iter (variables formula)) "p" in
    if is_constant (root formula) then
      if String.eqb (root formula) "T"
      then Return (Binary "|" (Nullary v) (Unary "~" (Nullary v)))
      else Return (Binary "&" (Nullary v) (Unary "~" (Nullary v)))
    else if is_unary (root formula) then
      match formula with
      | Nullary _ => Raise AttributeError
      | Unary _ a | Binary _ a _ =>
          x ← to_not_and_or a; Return (Unary "~" x)
      end
    else
      match formula with
      | Nullary _ => Raise AttributeError
      | Unary _ a => _ ← to_not_and_or a; Raise AttributeError
      | Binary r a b =>
          first ← to_not_and_or a;
          second ← to_not_and_or b;
          if String.eqb r "&" then Return (Binary "&" first second)
          else if String.eqb r "|" then Return (Binary "|" first second)
          else if String.eqb r "->" then
            Return (Binary "|" (Unary "~" first) second)
          else if String.eqb r "+" then
            let left := Binary "&" first (Unary "~" second) in
            let right := Binary "&" (Unary "~" first) second in
            Return (Binary "|" left right)
          else if String.eqb r "<->" then
            let left := Binary "&" first second in
            let right := Binary "&" (Unary "~" first) (Unary "~" second) in
            Return (Binary "|" left right)
          else if String.eqb r "-&" then
            Return (Unary "~" (Binary "&" first second))
          else if String.eqb r "-|" then
            Return (Unary "~" (Binary "|" first second))
          else Raise AssertionError
      end.

Fixpoint to_not_and (formula : Formula) : result Formula :=
  if is_variable (root formula) then Return (Nullary (root formula))
  else
    let v := next (iter (variables formula)) "p" in
    if is_constant (root formula) then
      if String.eqb (root formula) "T"
      then Return (Unary "~" (Binary "&" (Nullary v) (Unary "~" (Nullary v))))
      else Return (Binary "&" (Nullary v) (Unary "~" (Nullary v)))
    else if is_unary (root formula) then
      match formula with
      | Nullary _ => Raise AttributeError
      | Unary _ a | Binary _ a _ =>
          x ← to_not_and a; Return (Unary "~" x)
      end
    else
      match formula with
      | Nullary _ => Raise AttributeError
      | Unary _ a => _ ← to_not_and a; Raise AttributeError
      | Binary r a b =>
          first ← to_not_and a;
          second ← to_not_and b;
          if String.eqb r "&" then Return (Binary "&" first second)
          else if String.eqb r "|" then
            Return (Unary "~" (Binary "&" (Unary "~" first) (Unary "~" second)))
          else if String.eqb r "->" then
            Return (Unary "~" (Binary "&" first (Unary "~" second)))
          else if String.eqb r "+" then
            let a_or_b :=
              Unary "~" (Binary "&" (Unary "~" first) (Unary "~" second)) in
            let a_and_b := Binary "&" first second in
            Return (Binary "&" a_or_b (Unary "~" a_and_b))
          else if String.eqb r "<->" then
            let a_and_b := Binary "&" first second in
            let na_and_nb := Binary "&" (Unary "~" first) (Unary "~" second) in
            Return (Unary "~" (Binary "&" (Unary "~" a_and_b) (Unary "~" na_and_nb)))
          else if String.eqb r "-&" then
            Return (Unary "~" (Binary "&" first second))
          else if String.eqb r "-|" then
            Return (Binary "&" (Unary "~" first) (Unary "~" second))
          else Raise AssertionError
      end.

Import Nand.

Fixpoint to_nand (formula : Formula) : result Formula :=
  if is_variable (root formula) then Return (Nullary (root formula))
  else
    let v := next (iter (variables formula)) "p" in
    let t := nand (Nullary v) (nand (Nullary v) (Nullary v)) in
    let f := nand t t in
    if is_constant (root formula) then
      if String.eqb (root formula) "T" then Return t else Return f
    else if is_unary (root formula) then
      match formula with
      | Nullary _ => Raise AttributeError
      | Unary _ a | Binary _ a _ =>
          x ← to_nand a; Return (nand x x)
      end
    else
      match formula with
      | Nullary _ => Raise AttributeError
      | Unary _ a => _ ← to_nand a; Raise AttributeError
      | Binary r a b =>
          first ← to_nand a;
          second ← to_nand b;
          if String.eqb r "-&" then Return (nand first second)
          else if String.eqb r "&" then
            let x := nand first second in
            Return (nand x x)
          else if String.eqb r "|" then
            let na := nand first first in
            let nb := nand second second in
            Return (nand na nb)
          else if String.eqb r "->" then
            let nb := nand second second in
            Return (nand first nb)
          else if String.eqb r "-|" then
            let na := nand first first in
            let nb := nand second second in
            let a_or_b := nand na nb in
            Return (nand a_or_b a_or_b)
          else if String.eqb r "+" then
            let na := nand first first in
            let nb := nand second second in
            let a_or_b := nand na nb in
            let a_and_b := nand (nand first second) (nand first second) in
            let not_a_and_b := nand a_and_b a_and_b in
            let x := nand a_or_b not_a_and_b in
            Return (nand x x)
          else if String.eqb r "<->" then
            let na := nand first first in
            let nb := nand second second in
            let a_or_b := nand na nb in
            let a_and_b := nand (nand first second) (nand first second) in
            let not_a_and_b := nand a_and_b a_and_b in
            let x := nand a_or_b not_a_and_b in
            Return x
          else Raise AssertionError
      end.

Fixpoint to_implies_not (formula : Formula) : result Formula :=
  if is_variable (root formula) then Return (Nullary (root formula))
  else
    let v := next (iter (variables formula)) "p" in
    let t := Binary "->" (Nullary v) (Nullary v) in
    if is_constant (root formula) then
      if String.eqb (root formula) "T" then Return t
      else Return (Unary "~" t)
    else if is_unary (root formula) then
      match formula with
      | Nullary _ => Raise AttributeError
      | Unary _ a | Binary _ a _ =>
          x ← to_implies_not a; Return (Unary "~" x)
      end
    else
      match formula with
      | Nullary _ => Raise AttributeError
      | Unary _ a => _ ← to_implies_not a; Raise AttributeError
      | Binary r a b =>
          first ← to_implies_not a;
          second ← to_implies_not b;
          if String.eqb r "->" then Return (Binary "->" first second)
          else if String.eqb r "|" then Return (ImpliesNot.make_or first second)
          else if String.eqb r "&" then Return (ImpliesNot.make_and first second)
          else if String.eqb r "-&" then
            Return (Unary "~" (ImpliesNot.make_and first second))
          else if String.eqb r "-|" then
            Return (Unary "~" (ImpliesNot.make_or first second))
          else if String.eqb r "<->" then
            Return (ImpliesNot.make_and (Binary "->" first second)
                                        (Binary "->" second first))
          else if String.eqb r "+" then
            let a_or_b := ImpliesNot.make_or first second in
            let a_and_b := ImpliesNot.make_and first second in
            Return (ImpliesNot.make_and a_or_b (Unary "~" a_and_b))
          else Raise AssertionError
      end.

Fixpoint to_implies_false (formula : Formula) : result Formula :=
  if is_variable (root formula) then Return (Nullary (root formula))
  else
    let t := Binary "->" (Nullary "F") (Nullary "F") in
    if is_constant (root formula) then
      if String.eqb (root formula) "T" then Return t
      else Return (Nullary "F")
    else if is_unary (root formula) then
      match formula with
      | Nullary _ => Raise AttributeError
      | Unary _ a | Binary _ a _ =>
          x ← to_implies_false a; Return (ImpliesFalse.make_not x)
      end
    else
      match formula with
      | Nullary _ => Raise AttributeError
      | Unary _ a => _ ← to_implies_false a; Raise AttributeError
      | Binary r a b =>
          first ← to_implies_false a;
          second ← to_implies_false b;
          if String.eqb r "->" then Return (Binary "->" first second)
          else if String.eqb r "|" then Return (ImpliesFalse.make_or first second)
          else if String.eqb r "&" then Return (ImpliesFalse.make_and first second)
          else if String.eqb r "-&" then
            Return (ImpliesFalse.make_not (ImpliesFalse.make_and first second))
          else if String.eqb r "-|" then
            Return (ImpliesFalse.make_not (ImpliesFalse.make_or first second))
          else if String.eqb r "<->" then
            Return (ImpliesFalse.make_and (Binary "->" first second)
                                          (Binary "->" second first))
          else if String.eqb r "+" then
            let a_or_b := ImpliesFalse.make_or first second in
            let a_and_b := ImpliesFalse.make_and first second in
            Return (ImpliesFalse.make_and a_or_b (ImpliesFalse.make_not a_and_b))
          else Raise AssertionError
      end.

(** ** Semantics *)

(** Modelled from the spec: the truth value of each binary operator, as
    used by [evaluate] of [propositions/semantics.py]. *)
Definition binary_value (r : string) (x y : bool) : option bool :=
  if String.eqb r "&" then Some (x && y)
  else if String.eqb r "|" then Some (x || y)
  else if String.eqb r "->" then Some (implb x y)
  else if String.eqb r "+" then Some (xorb x y)
  else if String.eqb r "<->" then Some (eqb x y)
  else if String.eqb r "-&" then Some (negb (x && y))
  else if String.eqb r "-|" then Some (negb (x || y))
  else None.

(** Modelled from the spec: [evaluate] of [propositions/semantics.py], the
    truth value of a formula in a model that assigns a truth value to each
    of its variables.  There is no value when the model leaves a variable
    of the formula unassigned. *)
Fixpoint evaluate (formula : Formula) (model : gmap string bool) : option bool :=
  match formula with
  | Nullary r =>
      if is_variable r then model !! r
      else if String.eqb r "T" then Some true
      else if String.eqb r "F" then Some false
      else None
  | Unary r a =>
      if is_unary r then negb <$> evaluate a model else None
  | Binary r a b =>
      x ← evaluate a model;
      y ← evaluate b model;
      binary_value r x y
  end.

(** Modelled from the spec: the method [Formula.operators] of
    [propositions/syntax.py], the operators and constants that appear in
    the formula, here in order of appearance. *)
Fixpoint operators (formula : Formula) : list string :=
  match formula with
  | Nullary r => if is_variable r then [] else [r]
  | Unary r a => r :: operators a
  | Binary r a b => r :: operators a ++ operators b
  end.

(** [uses_only basis formula]: every operator and constant of the formula
    is a member of [basis]. *)
Definition uses_only (basis : list string) (formula : Formula) : bool :=
  forallb (λ o, existsb (String.eqb o) basis) (operators formula).

(** ** The five converters taken together *)

Definition convert (B : basis) : Formula → result Formula :=
  match B with
  | NOT_AND_OR => to_not_and_or
  | NOT_AND => to_not_and
  | NAND => to_nand
  | IMPLIES_NOT => to_implies_not
  | IMPLIES_FALSE => to_implies_false
  end.

End Operators.

(** ** Facts about root labels *)

Lemma is_constant_cases (s : string) :
  is_constant s = true → s = "T" ∨ s = "F".
Proof.
  unfold is_constant. rewrite orb_true_iff, !String.eqb_eq. tauto.
Qed.

Lemma is_unary_cases (s : string) : is_unary s = true → s = "~".
Proof. apply String.eqb_eq. Qed.

Lemma is_binary_cases (s : string) :
  is_binary s = true →
  s = "&" ∨ s = "|" ∨ s = "->" ∨ s = "+" ∨ s = "<->" ∨ s = "-&" ∨ s = "-|".
Proof.
  unfold is_binary, binary_operators; simpl.
  rewrite !orb_true_iff, !String.eqb_eq. intuition discriminate.
Qed.

(** The naming convention [letter_then_digits] satisfies the interface. *)
Lemma letter_then_digits_constant (s : string) :
  is_constant s = true → letter_then_digits s = false.
Proof. by intros [-> | ->]%is_constant_cases. Qed.

Lemma letter_then_digits_unary (s : string) :
  is_unary s = true → letter_then_digits s = false.
Proof. by intros ->%is_unary_cases. Qed.

Lemma letter_then_digits_binary (s : string) :
  is_binary s = true → letter_then_digits s = false.
Proof.
  intros Hs%is_binary_cases.
  by repeat (destruct Hs as [-> | Hs]; [done |]); subst.
Qed.

Instance book_names : VariableNames :=
  {| is_variable := letter_then_digits;
     is_variable_default := eq_refl;
     is_variable_constant := letter_then_digits_constant;
     is_variable_unary := letter_then_digits_unary;
     is_variable_binary := letter_then_digits_binary |}.

Section Facts.
Context `{VariableNames}.
Variable iter : gset string → list string.
Hypothesis iter_elements : ∀ s, iter s ≡ₚ elements s.

Lemma iter_empty : iter ∅ = [].
Proof.
  apply Permutation_nil_r. rewrite iter_elements. by rewrite elements_empty.
Qed.

Lemma is_variable_T : is_variable "T" = false.
Proof. by apply is_variable_constant. Qed.
Lemma is_variable_F : is_variable "F" = false.
Proof. by apply is_variable_constant. Qed.
Lemma is_variable_not : is_variable "~" = false.
Proof. by apply is_variable_unary. Qed.
Lemma is_variable_and : is_variable "&" = false.
Proof. by apply is_variable_binary. Qed.
Lemma is_variable_or : is_variable "|" = false.
Proof. by apply is_variable_binary. Qed.
Lemma is_variable_implies : is_variable "->" = false.
Proof. by apply is_variable_binary. Qed.
Lemma is_variable_xor : is_variable "+" = false.
Proof. by apply is_variable_binary. Qed.
Lemma is_variable_iff : is_variable "<->" = false.
Proof. by apply is_variable_binary. Qed.
Lemma is_variable_nand : is_variable "-&" = false.
Proof. by apply is_variable_binary. Qed.
Lemma is_variable_nor : is_variable "-|" = false.
Proof. by apply is_variable_binary. Qed.

(** Induction over well-formed formulas, one case per root label. *)
Lemma well_formed_ind (P : Formula → Prop) :
  (∀ x, is_variable x = true → P (Nullary x)) →
  P (Nullary "T") →
  P (Nullary "F") →
  (∀ a, well_formed a = true → P a → P (Unary "~" a)) →
  (∀ r a b, is_binary r = true → well_formed a = true → well_formed b = true →
            P a → P b → P (Binary r a b)) →
  ∀ formula, well_formed formula = true → P formula.
Proof.
  intros Hvar HT HF Hnot Hbin.
  induction formula as [r | r a IHa | r a IHa b IHb]; simpl; intros Hwf.
  - apply orb_true_iff in Hwf as [Hv | [-> | ->]%is_constant_cases]; auto.
  - apply andb_true_iff in Hwf as [->%is_unary_cases Ha]. auto.
  - apply andb_true_iff in Hwf as [[Hr Ha]%andb_true_iff Hb]. auto.
Qed.

(** Rewriting with what is known about root labels. *)
Ltac labels :=
  rewrite ?is_variable_T, ?is_variable_F, ?is_variable_not, ?is_variable_and,
    ?is_variable_or, ?is_variable_implies, ?is_variable_xor, ?is_variable_iff,
    ?is_variable_nand, ?is_variable_nor, ?is_variable_default, ?iter_empty.

(** One case of a converter on a well-formed formula: unfold the
    converter once, use the results of the recursive calls, and read off
    the returned term. *)
Ltac converted :=
  repeat match goal with
    | IH : ∃ g, _ = Return g ∧ _ |- _ =>
        let g := fresh "g" in
        let Hg := fresh "Hg" in
        let HP := fresh "HP" in
        destruct IH as (g & Hg & HP)
    end;
  simpl; labels; simpl;
  repeat match goal with
    | Hg : _ = Return _ |- _ => rewrite Hg; clear Hg; simpl
    end;
  eexists; split; [reflexivity | eauto].

(** Induction over well-formed formulas, with every case closed by
    [converted]. *)
Ltac by_rules :=
  apply well_formed_ind;
  [ intros x Hx; simpl; rewrite Hx; eauto
  | converted
  | converted
  | intros a _ IHa; converted
  | intros r a b Hr%is_binary_cases _ _ IHa IHb;
    repeat (destruct Hr as [-> | Hr]); [.. | subst]; converted ].

(** *** The converters on well-formed input

    Each converter returns on every well-formed formula, and the returned
    term is given by one rule per root label.  The lemmas below state this
    as a proof principle: a relation between input and output that is
    closed under the rules holds between every well-formed formula and
    what the converter returns on it. *)

Lemma to_not_and_or_cases (P : Formula → Formula → Prop) :
  (∀ x, is_variable x = true → P (Nullary x) (Nullary x)) →
  P (Nullary "T") (Binary "|" (Nullary "p") (Unary "~" (Nullary "p"))) →
  P (Nullary "F") (Binary "&" (Nullary "p") (Unary "~" (Nullary "p"))) →
  (∀ a a', P a a' → P (Unary "~" a) (Unary "~" a')) →
  (∀ a b a' b', P a a' → P b b' → P (Binary "&" a b) (Binary "&" a' b')) →
  (∀ a b a' b', P a a' → P b b' → P (Binary "|" a b) (Binary "|" a' b')) →
  (∀ a b a' b', P a a' → P b b' →
     P (Binary "->" a b) (Binary "|" (Unary "~" a') b')) →
  (∀ a b a' b', P a a' → P b b' →
     P (Binary "+" a b)
       (Binary "|" (Binary "&" a' (Unary "~" b')) (Binary "&" (Unary "~" a') b'))) →
  (∀ a b a' b', P a a' → P b b' →
     P (Binary "<->" a b)
       (Binary "|" (Binary "&" a' b') (Binary "&" (Unary "~" a') (Unary "~" b')))) →
  (∀ a b a' b', P a a' → P b b' →
     P (Binary "-&" a b) (Unary "~" (Binary "&" a' b'))) →
  (∀ a b a' b', P a a' → P b b' →
     P (Binary "-|" a b) (Unary "~" (Binary "|" a' b'))) →
  ∀ formula, well_formed formula = true →
    ∃ g, to_not_and_or iter formula = Return g ∧ P formula g.
Proof.
  intros Hvar HT HF Hnot Hand Hor Himp Hxor Hiff Hnand Hnor.
  by_rules.
Qed.

Lemma to_not_and_cases (P : Formula → Formula → Prop) :
  (∀ x, is_variable x = true → P (Nullary x) (Nullary x)) →
  P (Nullary "T") (Unary "~" (Binary "&" (Nullary "p") (Unary "~" (Nullary "p")))) →
  P (Nullary "F") (Binary "&" (Nullary "p") (Unary "~" (Nullary "p"))) →
  (∀ a a', P a a' → P (Unary "~" a) (Unary "~" a')) →
  (∀ a b a' b', P a a' → P b b' → P (Binary "&" a b) (Binary "&" a' b')) →
  (∀ a b a' b', P a a' → P b b' →
     P (Binary "|" a b) (Unary "~" (Binary "&" (Unary "~" a') (Unary "~" b')))) →
  (∀ a b a' b', P a a' → P b b' →
     P (Binary "->" a b) (Unary "~" (Binary "&" a' (Unary "~" b')))) →
  (∀ a b a' b', P a a' → P b b' →
     P (Binary "+" a b)
       (Binary "&" (Unary "~" (Binary "&" (Unary "~" a') (Unary "~" b')))
                   (Unary "~" (Binary "&" a' b')))) →
  (∀ a b a' b', P a a' → P b b' →
     P (Binary "<->" a b)
       (Unary "~" (Binary "&" (Unary "~" (Binary "&" a' b'))
                              (Unary "~" (Binary "&" (Unary "~" a') (Unary "~" b')))))) →
  (∀ a b a' b', P a a' → P b b' →
     P (Binary "-&" a b) (Unary "~" (Binary "&" a' b'))) →
  (∀ a b a' b', P a a' → P b b' →
     P (Binary "-|" a b) (Binary "&" (Unary "~" a') (Unary "~" b'))) →
  ∀ formula, well_formed formula = true →
    ∃ g, to_not_and iter formula = Return g ∧ P formula g.
Proof.
  intros Hvar HT HF Hnot Hand Hor Himp Hxor Hiff Hnand Hnor.
  by_rules.
Qed.

Import Nand.

Lemma to_nand_cases (P : Formula → Formula → Prop) :
  (∀ x, is_variable x = true → P (Nullary x) (Nullary x)) →
  P (Nullary "T") (nand (Nullary "p") (nand (Nullary "p") (Nullary "p"))) →
  P (Nullary "F")
    (nand (nand (Nullary "p") (nand (Nullary "p") (Nullary "p")))
          (nand (Nullary "p") (nand (Nullary "p") (Nullary "p")))) →
  (∀ a a', P a a' → P (Unary "~" a) (nand a' a')) →
  (∀ a b a' b', P a a' → P b b' →
     P (Binary "&" a b) (nand (nand a' b') (nand a' b'))) →
  (∀ a b a' b', P a a' → P b b' →
     P (Binary "|" a b) (nand (nand a' a') (nand b' b'))) →
  (∀ a b a' b', P a a' → P b b' →
     P (Binary "->" a b) (nand a' (nand b' b'))) →
  (∀ a b a' b', P a a' → P b b' →
     let a_or_b := nand (nand a' a') (nand b' b') in
     let a_and_b := nand (nand a' b') (nand a' b') in
     let x := nand a_or_b (nand a_and_b a_and_b) in
     P (Binary "+" a b) (nand x x)) →
  (∀ a b a' b', P a a' → P b b' →
     let a_or_b := nand (nand a' a') (nand b' b') in
     let a_and_b := nand (nand a' b') (nand a' b') in
     P (Binary "<->" a b) (nand a_or_b (nand a_and_b a_and_b))) →
  (∀ a b a' b', P a a' → P b b' → P (Binary "-&" a b) (nand a' b')) →
  (∀ a b a' b', P a a' → P b b' →
     let a_or_b := nand (nand a' a') (nand b' b') in
     P (Binary "-|" a b) (nand a_or_b a_or_b)) →
  ∀ formula, well_formed formula = true →
    ∃ g, to_nand iter formula = Return g ∧ P formula g.
Proof.
  intros Hvar HT HF Hnot Hand Hor Himp Hxor Hiff Hnand Hnor.
  by_rules.
Qed.

Lemma to_implies_not_cases (P : Formula → Formula → Prop) :
  (∀ x, is_variable x = true → P (Nullary x) (Nullary x)) →
  P (Nullary "T") (Binary "->" (Nullary "p") (Nullary "p")) →
  P (Nullary "F") (Unary "~" (Binary "->" (Nullary "p") (Nullary "p"))) →
  (∀ a a', P a a' → P (Unary "~" a) (Unary "~" a')) →
  (∀ a b a' b', P a a' → P b b' →
     P (Binary "&" a b) (ImpliesNot.make_and a' b')) →
  (∀ a b a' b', P a a' → P b b' →
     P (Binary "|" a b) (ImpliesNot.make_or a' b')) →
  (∀ a b a' b', P a a' → P b b' → P (Binary "->" a b) (Binary "->" a' b')) →
  (∀ a b a' b', P a a' → P b b' →
     P (Binary "+" a b)
       (ImpliesNot.make_and (ImpliesNot.make_or a' b')
                            (Unary "~" (ImpliesNot.make_and a' b')))) →
  (∀ a b a' b', P a a' → P b b' →
     P (Binary "<->" a b)
       (ImpliesNot.make_and (Binary "->" a' b') (Binary "->" b' a'))) →
  (∀ a b a' b', P a a' → P b b' →
     P (Binary "-&" a b) (Unary "~" (ImpliesNot.make_and a' b'))) →
  (∀ a b a' b', P a a' → P b b' →
     P (Binary "-|" a b) (Unary "~" (ImpliesNot.make_or a' b'))) →
  ∀ formula, well_formed formula = true →
    ∃ g, to_implies_not iter formula = Return g ∧ P formula g.
Proof.
  intros Hvar HT HF Hnot Hand Hor Himp Hxor Hiff Hnand Hnor.
  by_rules.
Qed.

Lemma to_implies_false_cases (P : Formula → Formula → Prop) :
  (∀ x, is_variable x = true → P (Nullary x) (Nullary x)) →
  P (Nullary "T") (Binary "->" (Nullary "F") (Nullary "F")) →
  P (Nullary "F") (Nullary "F") →
  (∀ a a', P a a' → P (Unary "~" a) (ImpliesFalse.make_not a')) →
  (∀ a b a' b', P a a' → P b b' →
     P (Binary "&" a b) (ImpliesFalse.make_and a' b')) →
  (∀ a b a' b', P a a' → P b b' →
     P (Binary "|" a b) (ImpliesFalse.make_or a' b')) →
  (∀ a b a' b', P a a' → P b b' → P (Binary "->" a b) (Binary "->" a' b')) →
  (∀ a b a' b', P a a' → P b b' →
     P (Binary "+" a b)
       (ImpliesFalse.make_and (ImpliesFalse.make_or a' b')
          (ImpliesFalse.make_not (ImpliesFalse.make_and a' b')))) →
  (∀ a b a' b', P a a' → P b b' →
     P (Binary "<->" a b)
       (ImpliesFalse.make_and (Binary "->" a' b') (Binary "->" b' a'))) →
  (∀ a b a' b', P a a' → P b b' →
     P (Binary "-&" a b) (ImpliesFalse.make_not (ImpliesFalse.make_and a' b'))) →
  (∀ a b a' b', P a a' → P b b' →
     P (Binary "-|" a b) (ImpliesFalse.make_not (ImpliesFalse.make_or a' b'))) →
  ∀ formula, well_formed formula = true →
    ∃ g, to_implies_false formula = Return g ∧ P formula g.
Proof.
  intros Hvar HT HF Hnot Hand Hor Himp Hxor Hiff Hnand Hnor.
  by_rules.
Qed.

(** *** Truth values *)

(** A well-formed formula has a truth value in every model that assigns
    one to each of its variables. *)
Lemma evaluate_defined (model : gmap string bool) :
  ∀ formula, well_formed formula = true →
    variables formula ⊆ dom model → is_Some (evaluate formula model).
Proof.
  apply (well_formed_ind
           (λ f, variables f ⊆ dom model → is_Some (evaluate f model)));
    cbn [evaluate variables].
  - intros x Hx. rewrite Hx. intros Hm.
    by apply elem_of_dom, Hm, elem_of_singleton.
  - labels. eauto.
  - labels. eauto.
  - intros a _ IHa Hm. destruct IHa as [x ->]; [done |]. simpl. eauto.
  - intros r a b Hr%is_binary_cases _ _ IHa IHb Hm.
    apply union_subseteq in Hm as [Hma Hmb].
    destruct (IHa Hma) as [x ->]. destruct (IHb Hmb) as [y ->].
    repeat (destruct Hr as [-> | Hr]); [.. | subst]; simpl; eauto.
Qed.

(** One case of a proof that a converter preserves truth values: the
    recursive calls do by hypothesis, the model covers the default
    variable where it was introduced, and what remains is a truth table. *)
Ltac truth_table :=
  intros;
  repeat match goal with x := _ : Formula |- _ => subst x end;
  unfold Nand.nand, ImpliesNot.make_and, ImpliesNot.make_or,
    ImpliesFalse.make_and, ImpliesFalse.make_or, ImpliesFalse.make_not in *;
  cbn [evaluate variables] in *;
  match goal with
  | Hmodel : _ ⊆ dom ?model |- _ =>
      repeat match goal with
        | IH : ∀ m : gmap string bool, _ → evaluate ?g m = _ |- _ =>
            rewrite !(IH model) by set_solver; clear IH
        end;
      labels;
      try match goal with
        | |- context [model !! "p"] =>
            let Hp := fresh "Hp" in
            assert (is_Some (model !! "p")) as [[] Hp]
              by (apply elem_of_dom; revert Hmodel; labels; set_solver);
            rewrite Hp
        end;
      repeat match goal with
        | |- context [evaluate ?a model] => destruct (evaluate a model) as [[] |]
        end
  end;
  reflexivity.

Lemma to_not_and_or_evaluate (formula : Formula) :
  well_formed formula = true →
  ∃ g, to_not_and_or iter formula = Return g ∧
       ∀ model, variables g ⊆ dom model → evaluate g model = evaluate formula model.
Proof.
  apply to_not_and_or_cases with
    (P := λ f g, ∀ model, variables g ⊆ dom model → evaluate g model = evaluate f model).
  all: truth_table.
Qed.

Lemma to_not_and_evaluate (formula : Formula) :
  well_formed formula = true →
  ∃ g, to_not_and iter formula = Return g ∧
       ∀ model, variables g ⊆ dom model → evaluate g model = evaluate formula model.
Proof.
  apply to_not_and_cases with
    (P := λ f g, ∀ model, variables g ⊆ dom model → evaluate g model = evaluate f model).
  all: truth_table.
Qed.

Lemma to_nand_evaluate (formula : Formula) :
  well_formed formula = true →
  ∃ g, to_nand iter formula = Return g ∧
       ∀ model, variables g ⊆ dom model → evaluate g model = evaluate formula model.
Proof.
  apply to_nand_cases with
    (P := λ f g, ∀ model, variables g ⊆ dom model → evaluate g model = evaluate f model).
  all: truth_table.
Qed.

Lemma to_implies_not_evaluate (formula : Formula) :
  well_formed formula = true →
  ∃ g, to_implies_not iter formula = Return g ∧
       ∀ model, variables g ⊆ dom model → evaluate g model = evaluate formula model.
Proof.
  apply to_implies_not_cases with
    (P := λ f g, ∀ model, variables g ⊆ dom model → evaluate g model = evaluate f model).
  all: truth_table.
Qed.

Lemma to_implies_false_evaluate (formula : Formula) :
  well_formed formula = true →
  ∃ g, to_implies_false formula = Return g ∧
       ∀ model, variables g ⊆ dom model → evaluate g model = evaluate formula model.
Proof.
  apply to_implies_false_cases with
    (P := λ f g, ∀ model, variables g ⊆ dom model → evaluate g model = evaluate f model).
  all: truth_table.
Qed.

(** *** Operators of the returned formula *)

Lemma uses_only_unary (basis : list string) (r : string) (a : Formula) :
  uses_only basis (Unary r a)
  = existsb (String.eqb r) basis && uses_only basis a.
Proof. reflexivity. Qed.

Lemma uses_only_binary (basis : list string) (r : string) (a b : Formula) :
  uses_only basis (Binary r a b)
  = existsb (String.eqb r) basis && uses_only basis a && uses_only basis b.
Proof.
  unfold uses_only; cbn [operators forallb].
  by rewrite forallb_app, andb_assoc.
Qed.

Lemma uses_only_variable (basis : list string) (x : string) :
  is_variable x = true → uses_only basis (Nullary x) = true.
Proof. intros Hx. unfold uses_only; simpl. by rewrite Hx. Qed.

Lemma uses_only_constant (basis : list string) (c : string) :
  is_variable c = false →
  uses_only basis (Nullary c) = existsb (String.eqb c) basis.
Proof. intros Hc. unfold uses_only; simpl. rewrite Hc; simpl. apply andb_true_r. Qed.

Lemma uses_only_subseteq (basis : list string) (formula : Formula) :
  uses_only basis formula = true ↔ operators formula ⊆ basis.
Proof.
  unfold uses_only. rewrite forallb_forall. split.
  - intros Hall o Ho%list_elem_of_In.
    apply Hall, existsb_exists in Ho as (o' & Ho' & ->%String.eqb_eq).
    by apply list_elem_of_In.
  - intros Hsub o Ho%list_elem_of_In. apply existsb_exists.
    exists o. split; [by apply list_elem_of_In, Hsub | apply String.eqb_refl].
Qed.

(** One case of a proof about the shape of the returned formula. *)
Ltac shape :=
  intros;
  repeat match goal with x := _ : Formula |- _ => subst x end;
  unfold Nand.nand, ImpliesNot.make_and, ImpliesNot.make_or,
    ImpliesFalse.make_and, ImpliesFalse.make_or, ImpliesFalse.make_not in *;
  repeat match goal with IH : _ ∧ _ |- _ => destruct IH as [? ?] end;
  cbn [well_formed];
  repeat (rewrite uses_only_binary || rewrite uses_only_unary);
  rewrite ?(uses_only_variable _ "p" is_variable_default),
    ?(uses_only_constant _ "F" is_variable_F);
  try match goal with
    | Hx : is_variable ?x = true |- _ => rewrite (uses_only_variable _ x Hx)
    end;
  repeat match goal with
    | IH : _ = true |- _ => rewrite !IH; clear IH
    end;
  labels; split; reflexivity.

Lemma to_not_and_or_shape (formula : Formula) :
  well_formed formula = true →
  ∃ g, to_not_and_or iter formula = Return g ∧
       (well_formed g = true ∧ uses_only ["~"; "&"; "|"] g = true).
Proof.
  apply to_not_and_or_cases with
    (P := λ _ g, well_formed g = true ∧ uses_only ["~"; "&"; "|"] g = true).
  all: shape.
Qed.

Lemma to_not_and_shape (formula : Formula) :
  well_formed formula = true →
  ∃ g, to_not_and iter formula = Return g ∧
       (well_formed g = true ∧ uses_only ["~"; "&"] g = true).
Proof.
  apply to_not_and_cases with
    (P := λ _ g, well_formed g = true ∧ uses_only ["~"; "&"] g = true).
  all: shape.
Qed.

Lemma to_nand_shape (formula : Formula) :
  well_formed formula = true →
  ∃ g, to_nand iter formula = Return g ∧
       (well_formed g = true ∧ uses_only ["-&"] g = true).
Proof.
  apply to_nand_cases with
    (P := λ _ g, well_formed g = true ∧ uses_only ["-&"] g = true).
  all: shape.
Qed.

Lemma to_implies_not_shape (formula : Formula) :
  well_formed formula = true →
  ∃ g, to_implies_not iter formula = Return g ∧
       (well_formed g = true ∧ uses_only ["->"; "~"] g = true).
Proof.
  apply to_implies_not_cases with
    (P := λ _ g, well_formed g = true ∧ uses_only ["->"; "~"] g = true).
  all: shape.
Qed.

Lemma to_implies_false_shape (formula : Formula) :
  well_formed formula = true →
  ∃ g, to_implies_false formula = Return g ∧
       (well_formed g = true ∧ uses_only ["->"; "F"] g = true).
Proof.
  apply to_implies_false_cases with
    (P := λ _ g, well_formed g = true ∧ uses_only ["->"; "F"] g = true).
  all: shape.
Qed.

(** *** Formulas that are already in the target basis *)

(** One case of a proof that a converter returns its argument: either the
    root label is outside the basis, or the rule rebuilds the same node
    over the converted operands. *)
Ltac unchanged :=
  intros;
  repeat match goal with x := _ : Formula |- _ => subst x end;
  unfold Nand.nand, ImpliesNot.make_and, ImpliesNot.make_or,
    ImpliesFalse.make_and, ImpliesFalse.make_or, ImpliesFalse.make_not in *;
  match goal with
  | Hb : uses_only _ (Nullary _) = true |- _ =>
      first
        [ reflexivity
        | rewrite uses_only_constant in Hb by (labels; reflexivity);
          discriminate Hb ]
  | Hb : uses_only _ (Unary _ _) = true |- _ =>
      rewrite uses_only_unary in Hb; simpl in Hb;
      first [ discriminate Hb | f_equal; auto ]
  | Hb : uses_only _ (Binary _ _ _) = true |- _ =>
      rewrite uses_only_binary in Hb; simpl in Hb;
      first
        [ discriminate Hb
        | apply andb_true_iff in Hb as [? ?]; f_equal; auto ]
  end.

Lemma to_not_and_or_unchanged (formula : Formula) :
  well_formed formula = true →
  uses_only ["~"; "&"; "|"] formula = true →
  to_not_and_or iter formula = Return formula.
Proof.
  intros Hwf Hbasis.
  destruct (to_not_and_or_cases
              (λ f g, uses_only ["~"; "&"; "|"] f = true → g = f))
    with (formula := formula) as (g & -> & Hg); [unchanged .. | done |].
  by rewrite Hg.
Qed.

Lemma to_not_and_unchanged (formula : Formula) :
  well_formed formula = true →
  uses_only ["~"; "&"] formula = true →
  to_not_and iter formula = Return formula.
Proof.
  intros Hwf Hbasis.
  destruct (to_not_and_cases (λ f g, uses_only ["~"; "&"] f = true → g = f))
    with (formula := formula) as (g & -> & Hg); [unchanged .. | done |].
  by rewrite Hg.
Qed.

Lemma to_nand_unchanged (formula : Formula) :
  well_formed formula = true →
  uses_only ["-&"] formula = true →
  to_nand iter formula = Return formula.
Proof.
  intros Hwf Hbasis.
  destruct (to_nand_cases (λ f g, uses_only ["-&"] f = true → g = f))
    with (formula := formula) as (g & -> & Hg); [unchanged .. | done |].
  by rewrite Hg.
Qed.

Lemma to_implies_not_unchanged (formula : Formula) :
  well_formed formula = true →
  uses_only ["->"; "~"] formula = true →
  to_implies_not iter formula = Return formula.
Proof.
  intros Hwf Hbasis.
  destruct (to_implies_not_cases (λ f g, uses_only ["->"; "~"] f = true → g = f))
    with (formula := formula) as (g & -> & Hg); [unchanged .. | done |].
  by rewrite Hg.
Qed.

Lemma to_implies_false_unchanged (formula : Formula) :
  well_formed formula = true →
  uses_only ["->"; "F"] formula = true →
  to_implies_false formula = Return formula.
Proof.
  intros Hwf Hbasis.
  destruct (to_implies_false_cases (λ f g, uses_only ["->"; "F"] f = true → g = f))
    with (formula := formula) as (g & -> & Hg); [unchanged .. | done |].
  by rewrite Hg.
Qed.

(** ** The converters taken together *)

Lemma convert_evaluate (B : basis) (formula : Formula) :
  well_formed formula = true →
  ∃ g, convert iter B formula = Return g ∧
       ∀ model, variables g ⊆ dom model → evaluate g model = evaluate formula model.
Proof.
  destruct B; simpl;
    eauto using to_not_and_or_evaluate, to_not_and_evaluate, to_nand_evaluate,
      to_implies_not_evaluate, to_implies_false_evaluate.
Qed.

Lemma convert_shape (B : basis) (formula : Formula) :
  well_formed formula = true →
  ∃ g, convert iter B formula = Return g ∧
       (well_formed g = true ∧ uses_only (basis_operators B) g = true).
Proof.
  destruct B; simpl;
    eauto using to_not_and_or_shape, to_not_and_shape, to_nand_shape,
      to_implies_not_shape, to_implies_false_shape.
Qed.

(** ** The properties of the specification *)

(** C1. Semantic equivalence: on a well-formed formula each of the five
    converters returns a formula that has the same truth value as the
    argument in every model that assigns a truth value to the variables of
    the argument and to the variables that appear only in the result. *)
Theorem convert_preserves_truth_value (B : basis) (formula : Formula) :
  well_formed formula = true →
  ∃ g, convert iter B formula = Return g ∧
       ∀ model : gmap string bool,
         variables formula ⊆ dom model → variables g ⊆ dom model →
         ∃ v, evaluate formula model = Some v ∧ evaluate g model = Some v.
Proof.
  intros Hwf.
  destruct (convert_evaluate B formula Hwf) as (g & Hg & Heq).
  exists g. split; [done |]. intros model Hf Hm.
  destruct (evaluate_defined model formula Hwf Hf) as [v Hv].
  exists v. by rewrite Heq.
Qed.

(** C2. Basis containment: every operator and constant that appears in the
    formula returned by a converter is a member of the target set of that
    converter; the constant T appears in no result, and the constant F
    only in results of [to_implies_false]. *)
Theorem convert_basis_containment (B : basis) (formula : Formula) :
  well_formed formula = true →
  ∃ g, convert iter B formula = Return g ∧
       operators g ⊆ basis_operators B ∧
       ("T" ∉ operators g) ∧
       (B ≠ IMPLIES_FALSE → "F" ∉ operators g).
Proof.
  intros Hwf.
  destruct (convert_shape B formula Hwf) as (g & Hg & _ & Hops).
  apply uses_only_subseteq in Hops.
  exists g. split; [done |]. split; [done |]. split.
  - intros HT%Hops.
    destruct B; simpl in HT; rewrite !elem_of_cons, elem_of_nil in HT;
      intuition discriminate.
  - intros HB HF%Hops.
    destruct B; simpl in HF; rewrite !elem_of_cons, elem_of_nil in HF;
      intuition discriminate.
Qed.

(** C3. Totality: each converter returns on every well-formed formula, a
    bare variable is returned as it is and a bare constant is converted
    too; the recursion goes through the operands only: what is returned
    for a negation or for a binary node is determined by what the same
    converter returns for [first] and for [second]. *)
Theorem convert_total (B : basis) :
  (∀ formula, well_formed formula = true →
     ∃ g, convert iter B formula = Return g) ∧
  (∀ x, is_variable x = true → convert iter B (Nullary x) = Return (Nullary x)) ∧
  (∃ t f, convert iter B (Nullary "T") = Return t ∧
          convert iter B (Nullary "F") = Return f) ∧
  (∀ r a a', is_unary r = true →
     convert iter B a = convert iter B a' →
     convert iter B (Unary r a) = convert iter B (Unary r a')) ∧
  (∀ r a b a' b', is_binary r = true →
     convert iter B a = convert iter B a' →
     convert iter B b = convert iter B b' →
     convert iter B (Binary r a b) = convert iter B (Binary r a' b')).
Proof.
  assert (∀ formula, well_formed formula = true →
            ∃ g, convert iter B formula = Return g) as Htotal.
  { intros formula Hwf.
    destruct (convert_shape B formula Hwf) as (g & Hg & _). eauto. }
  split; [done |]. split; [| split; [| split]].
  - intros x Hx. destruct B; simpl; by rewrite Hx.
  - destruct (Htotal (Nullary "T")) as [t Ht]; [simpl; by labels |].
    destruct (Htotal (Nullary "F")) as [f Hf]; [simpl; by labels |].
    eauto.
  - intros r a a' ->%is_unary_cases Ha.
    destruct B; simpl in *; labels; simpl; by rewrite Ha.
  - intros r a b a' b' Hr%is_binary_cases Ha Hb.
    repeat (destruct Hr as [-> | Hr]); [.. | subst];
      destruct B; simpl in *; labels; simpl; by rewrite Ha, Hb.
Qed.

(** C4. The name used to encode a constant.  On the conjunction of a
    variable [x] and the constant T, each of the four converters whose
    target set has no constant encodes T over the default name 'p',
    whatever variable [x] is and whatever the iteration order of sets:
    the variable set that the name is taken from is that of the constant
    node itself, which is empty. *)
Theorem constant_encoded_over_default_name (x : string) :
  is_variable x = true →
  let formula := Binary "&" (Nullary x) (Nullary "T") in
  let p := Nullary "p" in
  variables formula = {[ x ]} ∧
  to_not_and_or iter formula
    = Return (Binary "&" (Nullary x) (Binary "|" p (Unary "~" p))) ∧
  to_not_and iter formula
    = Return (Binary "&" (Nullary x) (Unary "~" (Binary "&" p (Unary "~" p)))) ∧
  to_nand iter formula
    = Return (nand (nand (Nullary x) (nand p (nand p p)))
                   (nand (Nullary x) (nand p (nand p p)))) ∧
  to_implies_not iter formula
    = Return (Unary "~" (Binary "->" (Nullary x) (Unary "~" (Binary "->" p p)))).
Proof.
  intros Hx formula p. subst formula p.
  repeat split; simpl; labels; rewrite ?Hx; simpl; labels; try reflexivity.
  apply union_empty_r_L.
Qed.

(** C5 (amended). In [to_implies_false] a conjunction of operands that
    convert to [a'] and [b'] is returned as ((a'->(b'->F))->F), the single
    negation of a' -> ~b' with ~x written x->F. *)
Theorem to_implies_false_and (a b a' b' : Formula) :
  to_implies_false a = Return a' →
  to_implies_false b = Return b' →
  to_implies_false (Binary "&" a b)
  = Return (Binary "->"
              (Binary "->" a' (Binary "->" b' (Nullary "F")))
              (Nullary "F")).
Proof.
  intros Ha Hb. simpl. labels. simpl. by rewrite Ha, Hb.
Qed.

(** C6 (amended). In [to_nand], with operands that convert to [a'] and
    [b'], OR = NAND(NAND(a',a'), NAND(b',b')),
    ANDab = NAND(NAND(a',b'), NAND(a',b')) and
    NOT_ANDab = NAND(ANDab, ANDab), an exclusive or is returned as
    NAND(NAND(OR, NOT_ANDab), NAND(OR, NOT_ANDab)) and an equivalence as
    NAND(OR, NOT_ANDab). *)
Theorem to_nand_xor_iff (a b a' b' : Formula) :
  to_nand iter a = Return a' →
  to_nand iter b = Return b' →
  let OR := nand (nand a' a') (nand b' b') in
  let ANDab := nand (nand a' b') (nand a' b') in
  let NOT_ANDab := nand ANDab ANDab in
  to_nand iter (Binary "+" a b)
    = Return (nand (nand OR NOT_ANDab) (nand OR NOT_ANDab)) ∧
  to_nand iter (Binary "<->" a b) = Return (nand OR NOT_ANDab).
Proof.
  intros Ha Hb. simpl. labels. simpl. by rewrite Ha, Hb.
Qed.

(** C7. No converter raises on a well-formed formula; in particular the
    assertion that ends each converter never fails. *)
Theorem convert_never_raises (B : basis) (formula : Formula) :
  well_formed formula = true →
  ∀ e : exception, convert iter B formula ≠ Raise e.
Proof.
  intros Hwf e.
  destruct (convert_shape B formula Hwf) as (g & -> & _). discriminate.
Qed.

(** C8. [to_implies_false] returns the constant F for the constant F, and
    F->F for the constant T: a formula without variables that is true in
    every model, the empty one included. *)
Theorem to_implies_false_constants :
  let t := Binary "->" (Nullary "F") (Nullary "F") in
  to_implies_false (Nullary "F") = Return (Nullary "F") ∧
  to_implies_false (Nullary "T") = Return t ∧
  variables t = ∅ ∧
  (∀ model : gmap string bool, evaluate t model = Some true) ∧
  evaluate t ∅ = Some true.
Proof.
  repeat split; intros; simpl; labels; reflexivity.
Qed.

(** C9. Converting twice: on a well-formed formula each converter returns
    a formula [g] on which it returns again, and the second result has the
    same truth value as [g] in every model that assigns a truth value to
    the variables of both. *)
Theorem convert_idempotent (B : basis) (formula : Formula) :
  well_formed formula = true →
  ∃ g h, convert iter B formula = Return g ∧
         convert iter B g = Return h ∧
         ∀ model : gmap string bool,
           variables g ⊆ dom model → variables h ⊆ dom model →
           ∃ v, evaluate g model = Some v ∧ evaluate h model = Some v.
Proof.
  intros Hwf.
  destruct (convert_shape B formula Hwf) as (g & Hg & Hwfg & _).
  destruct (convert_evaluate B g Hwfg) as (h & Hh & Heq).
  exists g, h. split; [done |]. split; [done |]. intros model Hmg Hmh.
  destruct (evaluate_defined model g Hwfg Hmg) as [v Hv].
  exists v. by rewrite Heq.
Qed.

(** C10. A well-formed formula whose operators and constants all belong to
    the target set of a converter is returned by that converter as it
    is. *)
Theorem convert_identity_on_basis (B : basis) (formula : Formula) :
  well_formed formula = true →
  uses_only (basis_operators B) formula = true →
  convert iter B formula = Return formula.
Proof.
  intros Hwf Hbasis. destruct B; simpl in *.
  - by apply to_not_and_or_unchanged.
  - by apply to_not_and_unchanged.
  - by apply to_nand_unchanged.
  - by apply to_implies_not_unchanged.
  - by apply to_implies_false_unchanged.
Qed.

(** ** Further properties of the converters *)

Lemma convert_unchanged (B : basis) (formula : Formula) :
  well_formed formula = true →
  uses_only (basis_operators B) formula = true →
  convert iter B formula = Return formula.
Proof.
  destruct B; simpl;
    eauto using to_not_and_or_unchanged, to_not_and_unchanged, to_nand_unchanged,
      to_implies_not_unchanged, to_implies_false_unchanged.
Qed.

(** X1. What a converter returns on a well-formed formula is well-formed
    again: every node that the converter builds has the number of operands
    that its root label requires. *)
Theorem convert_result_well_formed (B : basis) (formula g : Formula) :
  well_formed formula = true →
  convert iter B formula = Return g →
  well_formed g = true.
Proof.
  intros Hwf Hg.
  destruct (convert_shape B formula Hwf) as (g' & Hg' & Hwfg & _).
  congruence.
Qed.

(** X2. The result of one converter is left as it is by every converter
    whose target set includes that of the first; in particular a converter
    returns its own results unchanged, and [to_not_and_or] returns the
    results of [to_not_and] unchanged. *)
Theorem convert_result_fixed (B B' : basis) (formula g : Formula) :
  basis_operators B ⊆ basis_operators B' →
  well_formed formula = true →
  convert iter B formula = Return g →
  convert iter B' g = Return g.
Proof.
  intros Hsub Hwf Hg.
  destruct (convert_shape B formula Hwf) as (g' & Hg' & Hwfg & Hops).
  assert (g' = g) as -> by congruence.
  apply convert_unchanged; [done |].
  apply uses_only_subseteq. apply uses_only_subseteq in Hops.
  by etrans.
Qed.

(** One case of a proof about the variables of the returned formula. *)
Ltac same_variables :=
  intros;
  repeat match goal with x := _ : Formula |- _ => subst x end;
  unfold Nand.nand, ImpliesNot.make_and, ImpliesNot.make_or,
    ImpliesFalse.make_and, ImpliesFalse.make_or, ImpliesFalse.make_not in *;
  cbn [variables operators existsb];
  rewrite ?existsb_app;
  repeat match goal with
    | IH : variables _ = _ |- _ => rewrite !IH; clear IH
    end;
  labels;
  repeat match goal with
    | Hx : is_variable ?x = true |- _ => rewrite !Hx; clear Hx
    end;
  repeat match goal with
    | |- context [existsb is_constant (operators ?a)] =>
        destruct (existsb is_constant (operators a))
    end;
  simpl; apply set_eq; intros ?;
  rewrite ?elem_of_union, ?elem_of_empty; tauto.

(** X3. The variables of the result, for the four converters whose target
    set has no constant: the result has the variables of the argument, and
    in addition the default name 'p' exactly when a constant occurs in the
    argument.  No variable is dropped, and no name other than 'p' is
    introduced. *)
Theorem convert_variables (B : basis) (formula : Formula) :
  B ≠ IMPLIES_FALSE →
  well_formed formula = true →
  ∃ g, convert iter B formula = Return g ∧
       variables g
       = variables formula
         ∪ (if existsb is_constant (operators formula) then {[ "p" ]} else ∅).
Proof.
  intros HB. destruct B; [| | | | done]; simpl.
  - apply to_not_and_or_cases with
      (P := λ f g, variables g = variables f
               ∪ (if existsb is_constant (operators f) then {[ "p" ]} else ∅)).
    all: same_variables.
  - apply to_not_and_cases with
      (P := λ f g, variables g = variables f
               ∪ (if existsb is_constant (operators f) then {[ "p" ]} else ∅)).
    all: same_variables.
  - apply to_nand_cases with
      (P := λ f g, variables g = variables f
               ∪ (if existsb is_constant (operators f) then {[ "p" ]} else ∅)).
    all: same_variables.
  - apply to_implies_not_cases with
      (P := λ f g, variables g = variables f
               ∪ (if existsb is_constant (operators f) then {[ "p" ]} else ∅)).
    all: same_variables.
Qed.

(** X4. [to_implies_false] introduces no variable: the result has exactly
    the variables of the argument, and the same truth value as the argument
    in every model, with no value in the models in which the argument has
    none. *)
Theorem to_implies_false_same_variables (formula : Formula) :
  well_formed formula = true →
  ∃ g, to_implies_false formula = Return g ∧
       variables g = variables formula ∧
       ∀ model : gmap string bool, evaluate g model = evaluate formula model.
Proof.
  apply to_implies_false_cases with
    (P := λ f g, variables g = variables f ∧
                 ∀ model : gmap string bool, evaluate g model = evaluate f model).
  all: intros;
    repeat match goal with IH : _ ∧ _ |- _ => destruct IH as [? ?] end;
    unfold ImpliesFalse.make_and, ImpliesFalse.make_or, ImpliesFalse.make_not;
    (split; [same_variables |]);
    intros model; cbn [evaluate];
    repeat match goal with
      | IH : ∀ m : gmap string bool, evaluate _ m = _ |- _ =>
          rewrite !(IH model); clear IH
      end;
    labels;
    repeat match goal with
      | |- context [evaluate ?a model] => destruct (evaluate a model) as [[] |]
      end;
    reflexivity.
Qed.

(** The iteration order of sets does not show in the results: the variable
    set from which a name is taken is empty wherever the name is used. *)
Ltac any_order :=
  match goal with
  | |- ∀ formula, well_formed formula = true → ?f iter formula = ?f elements formula =>
      apply (well_formed_ind (λ formula, f iter formula = f elements formula));
      [ intros x Hx; simpl; by rewrite Hx
      | simpl; labels; by rewrite ?elements_empty
      | simpl; labels; by rewrite ?elements_empty
      | intros a _ IHa; simpl; labels; simpl; by rewrite IHa
      | intros r a b Hr%is_binary_cases _ _ IHa IHb;
        repeat (destruct Hr as [-> | Hr]); [.. | subst];
        simpl; labels; simpl; by rewrite IHa, IHb ]
  end.

Lemma convert_in_order_of_elements (B : basis) :
  ∀ formula, well_formed formula = true →
    convert iter B formula = convert elements B formula.
Proof.
  destruct B; simpl; [any_order .. | done].
Qed.

(** X6. A binary node whose root label is none of the known labels fails
    the assertion that ends the converter, once both operands have been
    converted. *)
Theorem unknown_label_fails_assertion (B : basis) (r : string) (a b a' b' : Formula) :
  is_variable r = false →
  is_constant r = false →
  is_unary r = false →
  is_binary r = false →
  convert iter B a = Return a' →
  convert iter B b = Return b' →
  convert iter B (Binary r a b) = Raise AssertionError.
Proof.
  intros Hv Hc Hu Hb Ha Hb'.
  unfold is_binary, binary_operators in Hb. cbn [existsb] in Hb.
  rewrite !orb_false_iff in Hb.
  destruct Hb as (Hand & Hor & Himp & Hxor & Hiff & Hnand & Hnor & _).
  destruct B; simpl in *; rewrite Hv, Hc, Hu, Ha, Hb'; simpl;
    by rewrite Hand, Hor, Himp, Hxor, Hiff, Hnand, Hnor.
Qed.

(** X7. The helpers of [to_implies_not]: [make_and(a, b)] has the truth
    value of the conjunction and [make_or(a, b)] that of the disjunction of
    [a] and [b], in every model in which [a] and [b] have a truth value, and
    none otherwise. *)
Theorem implies_not_helpers_evaluate (a b : Formula) (model : gmap string bool) :
  evaluate (ImpliesNot.make_and a b) model
  = (x ← evaluate a model; y ← evaluate b model; Some (x && y)) ∧
  evaluate (ImpliesNot.make_or a b) model
  = (x ← evaluate a model; y ← evaluate b model; Some (x || y)).
Proof.
  unfold ImpliesNot.make_and, ImpliesNot.make_or. cbn [evaluate].
  by destruct (evaluate a model) as [[] |], (evaluate b model) as [[] |].
Qed.

(** X8. The helpers of [to_implies_false]: [make_not(a)] has the truth value
    of the negation of [a], [make_and(a, b)] that of the conjunction and
    [make_or(a, b)] that of the disjunction of [a] and [b], in every model in
    which the operands have a truth value, and none otherwise. *)
Theorem implies_false_helpers_evaluate (a b : Formula) (model : gmap string bool) :
  evaluate (ImpliesFalse.make_not a) model = negb <$> evaluate a model ∧
  evaluate (ImpliesFalse.make_and a b) model
  = (x ← evaluate a model; y ← evaluate b model; Some (x && y)) ∧
  evaluate (ImpliesFalse.make_or a b) model
  = (x ← evaluate a model; y ← evaluate b model; Some (x || y)).
Proof.
  unfold ImpliesFalse.make_and, ImpliesFalse.make_or, ImpliesFalse.make_not.
  cbn [evaluate]. labels.
  by destruct (evaluate a model) as [[] |], (evaluate b model) as [[] |].
Qed.

(** X9. Converters can be chained: on a well-formed formula, a second
    converter returns on the result of a first one, its result has only the
    operators of the second target set, and it has the truth value of the
    original formula in every model that assigns a truth value to the
    variables of the three formulas. *)
Theorem convert_chain (B B' : basis) (formula : Formula) :
  well_formed formula = true →
  ∃ g h, convert iter B formula = Return g ∧
         convert iter B' g = Return h ∧
         operators h ⊆ basis_operators B' ∧
         ∀ model : gmap string bool,
           variables formula ⊆ dom model →
           variables g ⊆ dom model →
           variables h ⊆ dom model →
           ∃ v, evaluate formula model = Some v ∧ evaluate h model = Some v.
Proof.
  intros Hwf.
  destruct (convert_shape B formula Hwf) as (g & Hg & Hwfg & _).
  destruct (convert_evaluate B formula Hwf) as (g' & Hg' & Hfg).
  assert (g' = g) as -> by congruence.
  destruct (convert_shape B' g Hwfg) as (h & Hh & _ & Hops).
  destruct (convert_evaluate B' g Hwfg) as (h' & Hh' & Hgh).
  assert (h' = h) as -> by congruence.
  exists g, h. split; [done |]. split; [done |].
  split; [by apply uses_only_subseteq |].
  intros model Hmf Hmg Hmh.
  destruct (evaluate_defined model formula Hwf Hmf) as [v Hv].
  exists v. split; [done |]. by rewrite Hgh, Hfg.
Qed.

(** One case of a proof about the size of the returned formula. *)
Ltac measure :=
  intros;
  repeat match goal with x := _ : Formula |- _ => subst x end;
  unfold Nand.nand, ImpliesNot.make_and, ImpliesNot.make_or,
    ImpliesFalse.make_and, ImpliesFalse.make_or, ImpliesFalse.make_not in *;
  cbn [nodes height]; lia.

(** X10. No converter simplifies: the result has at least as many nodes as
    the argument, and is at least as high. *)
Theorem convert_never_shrinks (B : basis) (formula : Formula) :
  well_formed formula = true →
  ∃ g, convert iter B formula = Return g ∧
       (nodes formula ≤ nodes g)%nat ∧ (height formula ≤ height g)%nat.
Proof.
  destruct B; simpl.
  - apply to_not_and_or_cases with
      (P := λ f g, (nodes f ≤ nodes g)%nat ∧ (height f ≤ height g)%nat); measure.
  - apply to_not_and_cases with
      (P := λ f g, (nodes f ≤ nodes g)%nat ∧ (height f ≤ height g)%nat); measure.
  - apply to_nand_cases with
      (P := λ f g, (nodes f ≤ nodes g)%nat ∧ (height f ≤ height g)%nat); measure.
  - apply to_implies_not_cases with
      (P := λ f g, (nodes f ≤ nodes g)%nat ∧ (height f ≤ height g)%nat); measure.
  - apply to_implies_false_cases with
      (P := λ f g, (nodes f ≤ nodes g)%nat ∧ (height f ≤ height g)%nat); measure.
Qed.

(** X11. The height of the result is linear in the height of the
    argument: each rule puts the converted operands at most three
    ([to_not_and_or]), five ([to_not_and], [to_nand]) or seven
    ([to_implies_not], [to_implies_false]) levels below the node it
    builds. *)
Theorem convert_height (B : basis) (formula : Formula) :
  well_formed formula = true →
  ∃ g, convert iter B formula = Return g ∧
       (height g ≤ match B with
                   | NOT_AND_OR => 3 * height formula + 2
                   | NOT_AND => 5 * height formula + 3
                   | NAND => 5 * height formula + 3
                   | IMPLIES_NOT => 7 * height formula + 2
                   | IMPLIES_FALSE => 7 * height formula + 1
                   end)%nat.
Proof.
  destruct B; simpl.
  - apply to_not_and_or_cases with
      (P := λ f g, (height g ≤ 3 * height f + 2)%nat); measure.
  - apply to_not_and_cases with
      (P := λ f g, (height g ≤ 5 * height f + 3)%nat); measure.
  - apply to_nand_cases with
      (P := λ f g, (height g ≤ 5 * height f + 3)%nat); measure.
  - apply to_implies_not_cases with
      (P := λ f g, (height g ≤ 7 * height f + 2)%nat); measure.
  - apply to_implies_false_cases with
      (P := λ f g, (height g ≤ 7 * height f + 1)%nat); measure.
Qed.

(** X12. [to_nand] doubles its operand at every negation: on a variable
    under [n] negations it returns a formula of 2^(n+1) - 1 nodes. *)
Theorem to_nand_negations (n : nat) (x : string) :
  is_variable x = true →
  ∃ g, to_nand iter (Nat.iter n (Unary "~") (Nullary x)) = Return g ∧
       nodes g = (2 ^ (n + 1) - 1)%nat.
Proof.
  intros Hx. induction n as [| n (g & Hg & Hnodes)].
  - exists (Nullary x). simpl. by rewrite Hx.
  - exists (nand g g). split.
    + cbn [Nat.iter nat_rect]. simpl. labels. simpl.
      fold (Nat.iter n (Unary "~") (Nullary x)). by rewrite Hg.
    + cbn [nand nodes]. rewrite Hnodes.
      replace (S n + 1)%nat with (S (n + 1)) by lia.
      rewrite Nat.pow_succ_r'.
      assert (1 ≤ 2 ^ (n + 1))%nat by (apply Nat.neq_0_lt_0, Nat.pow_nonzero; lia).
      lia.
Qed.

End Facts.

(** X5. The result of a converter on a well-formed formula is the same
    whatever the order in which sets are iterated: taking a name from
    [formula.variables()] never makes the result depend on the run. *)
Theorem convert_independent_of_iteration_order `{VariableNames}
    (iter iter' : gset string → list string) (B : basis) (formula : Formula) :
  (∀ s, iter s ≡ₚ elements s) →
  (∀ s, iter' s ≡ₚ elements s) →
  well_formed formula = true →
  convert iter B formula = convert iter' B formula.
Proof.
  intros Hiter Hiter' Hwf.
  rewrite (convert_in_order_of_elements iter Hiter B formula Hwf).
  by rewrite (convert_in_order_of_elements iter' Hiter' B formula Hwf).
Qed.

(** ** Instances

    The theorems above at the naming convention [book_names], with sets
    iterated in the order of [elements], on concrete formulas. *)

Lemma convert_preserves_truth_value_witness :
  well_formed (Binary "->" (Nullary "q") (Binary "+" (Nullary "T") (Nullary "x12")))
  = true ∧
  ∃ g,
    convert elements NAND
      (Binary "->" (Nullary "q") (Binary "+" (Nullary "T") (Nullary "x12")))
    = Return g ∧
    ∀ model : gmap string bool,
      variables (Binary "->" (Nullary "q") (Binary "+" (Nullary "T") (Nullary "x12")))
      ⊆ dom model →
      variables g ⊆ dom model →
      ∃ v,
        evaluate (Binary "->" (Nullary "q") (Binary "+" (Nullary "T") (Nullary "x12")))
          model = Some v ∧
        evaluate g model = Some v.
Proof.
  split; [reflexivity |].
  apply (convert_preserves_truth_value elements); [intros s | ]; reflexivity.
Defined.

Lemma convert_basis_containment_witness :
  well_formed (Binary "<->" (Nullary "F") (Unary "~" (Nullary "r"))) = true ∧
  ∃ g,
    convert elements IMPLIES_NOT (Binary "<->" (Nullary "F") (Unary "~" (Nullary "r")))
    = Return g ∧
    operators g ⊆ basis_operators IMPLIES_NOT ∧
    ("T" ∉ operators g) ∧
    (IMPLIES_NOT ≠ IMPLIES_FALSE → "F" ∉ operators g).
Proof.
  split; [reflexivity |].
  apply (convert_basis_containment elements); [intros s | ]; reflexivity.
Defined.

Lemma convert_total_witness :
  (∀ formula, well_formed formula = true →
     ∃ g, convert elements NOT_AND formula = Return g) ∧
  (∀ x, is_variable x = true →
     convert elements NOT_AND (Nullary x) = Return (Nullary x)) ∧
  (∃ t f, convert elements NOT_AND (Nullary "T") = Return t ∧
          convert elements NOT_AND (Nullary "F") = Return f) ∧
  (∀ r a a', is_unary r = true →
     convert elements NOT_AND a = convert elements NOT_AND a' →
     convert elements NOT_AND (Unary r a) = convert elements NOT_AND (Unary r a')) ∧
  (∀ r a b a' b', is_binary r = true →
     convert elements NOT_AND a = convert elements NOT_AND a' →
     convert elements NOT_AND b = convert elements NOT_AND b' →
     convert elements NOT_AND (Binary r a b)
     = convert elements NOT_AND (Binary r a' b')).
Proof.
  apply (convert_total elements). intros s. reflexivity.
Defined.

Lemma constant_encoded_over_default_name_witness :
  is_variable "q" = true ∧
  variables (Binary "&" (Nullary "q") (Nullary "T")) = {[ "q" ]} ∧
  to_not_and_or elements (Binary "&" (Nullary "q") (Nullary "T"))
  = Return (Binary "&" (Nullary "q")
              (Binary "|" (Nullary "p") (Unary "~" (Nullary "p")))) ∧
  to_not_and elements (Binary "&" (Nullary "q") (Nullary "T"))
  = Return (Binary "&" (Nullary "q")
              (Unary "~" (Binary "&" (Nullary "p") (Unary "~" (Nullary "p"))))) ∧
  to_nand elements (Binary "&" (Nullary "q") (Nullary "T"))
  = Return (Nand.nand
              (Nand.nand (Nullary "q")
                 (Nand.nand (Nullary "p") (Nand.nand (Nullary "p") (Nullary "p"))))
              (Nand.nand (Nullary "q")
                 (Nand.nand (Nullary "p") (Nand.nand (Nullary "p") (Nullary "p"))))) ∧
  to_implies_not elements (Binary "&" (Nullary "q") (Nullary "T"))
  = Return (Unary "~"
              (Binary "->" (Nullary "q")
                 (Unary "~" (Binary "->" (Nullary "p") (Nullary "p"))))).
Proof.
  split; [reflexivity |].
  apply (constant_encoded_over_default_name elements); [intros s | ]; reflexivity.
Defined.

Lemma to_implies_false_and_witness :
  to_implies_false (Nullary "q") = Return (Nullary "q") ∧
  to_implies_false (Unary "~" (Nullary "r"))
  = Return (Binary "->" (Nullary "r") (Nullary "F")) ∧
  to_implies_false (Binary "&" (Nullary "q") (Unary "~" (Nullary "r")))
  = Return (Binary "->"
              (Binary "->" (Nullary "q")
                 (Binary "->" (Binary "->" (Nullary "r") (Nullary "F")) (Nullary "F")))
              (Nullary "F")).
Proof.
  split; [reflexivity |]. split; [reflexivity |].
  apply to_implies_false_and; reflexivity.
Defined.

Lemma to_nand_xor_iff_witness :
  to_nand elements (Nullary "q") = Return (Nullary "q") ∧
  to_nand elements (Nullary "r") = Return (Nullary "r") ∧
  to_nand elements (Binary "+" (Nullary "q") (Nullary "r"))
  = Return
      (Nand.nand
         (Nand.nand
            (Nand.nand (Nand.nand (Nullary "q") (Nullary "q"))
               (Nand.nand (Nullary "r") (Nullary "r")))
            (Nand.nand
               (Nand.nand (Nand.nand (Nullary "q") (Nullary "r"))
                  (Nand.nand (Nullary "q") (Nullary "r")))
               (Nand.nand (Nand.nand (Nullary "q") (Nullary "r"))
                  (Nand.nand (Nullary "q") (Nullary "r")))))
         (Nand.nand
            (Nand.nand (Nand.nand (Nullary "q") (Nullary "q"))
               (Nand.nand (Nullary "r") (Nullary "r")))
            (Nand.nand
               (Nand.nand (Nand.nand (Nullary "q") (Nullary "r"))
                  (Nand.nand (Nullary "q") (Nullary "r")))
               (Nand.nand (Nand.nand (Nullary "q") (Nullary "r"))
                  (Nand.nand (Nullary "q") (Nullary "r")))))) ∧
  to_nand elements (Binary "<->" (Nullary "q") (Nullary "r"))
  = Return
      (Nand.nand
         (Nand.nand (Nand.nand (Nullary "q") (Nullary "q"))
            (Nand.nand (Nullary "r") (Nullary "r")))
         (Nand.nand
            (Nand.nand (Nand.nand (Nullary "q") (Nullary "r"))
               (Nand.nand (Nullary "q") (Nullary "r")))
            (Nand.nand (Nand.nand (Nullary "q") (Nullary "r"))
               (Nand.nand (Nullary "q") (Nullary "r"))))).
Proof.
  split; [reflexivity |]. split; [reflexivity |].
  apply (to_nand_xor_iff elements (Nullary "q") (Nullary "r")); reflexivity.
Defined.

Lemma convert_never_raises_witness :
  well_formed (Binary "-|" (Nullary "T") (Binary "+" (Nullary "s") (Nullary "F")))
  = true ∧
  ∀ e : exception,
    convert elements NOT_AND_OR
      (Binary "-|" (Nullary "T") (Binary "+" (Nullary "s") (Nullary "F")))
    ≠ Raise e.
Proof.
  split; [reflexivity |].
  apply (convert_never_raises elements); [intros s | ]; reflexivity.
Defined.

Lemma to_implies_false_constants_witness :
  to_implies_false (Nullary "F") = Return (Nullary "F") ∧
  to_implies_false (Nullary "T")
  = Return (Binary "->" (Nullary "F") (Nullary "F")) ∧
  variables (Binary "->" (Nullary "F") (Nullary "F")) = ∅ ∧
  (∀ model : gmap string bool,
     evaluate (Binary "->" (Nullary "F") (Nullary "F")) model = Some true) ∧
  evaluate (Binary "->" (Nullary "F") (Nullary "F")) ∅ = Some true.
Proof. apply to_implies_false_constants. Defined.

Lemma convert_idempotent_witness :
  well_formed (Binary "|" (Nullary "T") (Unary "~" (Nullary "z3"))) = true ∧
  ∃ g h,
    convert elements NAND (Binary "|" (Nullary "T") (Unary "~" (Nullary "z3")))
    = Return g ∧
    convert elements NAND g = Return h ∧
    ∀ model : gmap string bool,
      variables g ⊆ dom model → variables h ⊆ dom model →
      ∃ v, evaluate g model = Some v ∧ evaluate h model = Some v.
Proof.
  split; [reflexivity |].
  apply (convert_idempotent elements); [intros s | ]; reflexivity.
Defined.

Lemma convert_identity_on_basis_witness :
  well_formed (Binary "->" (Binary "->" (Nullary "q") (Nullary "F")) (Nullary "r"))
  = true ∧
  uses_only (basis_operators IMPLIES_FALSE)
    (Binary "->" (Binary "->" (Nullary "q") (Nullary "F")) (Nullary "r"))
  = true ∧
  convert elements IMPLIES_FALSE
    (Binary "->" (Binary "->" (Nullary "q") (Nullary "F")) (Nullary "r"))
  = Return (Binary "->" (Binary "->" (Nullary "q") (Nullary "F")) (Nullary "r")).
Proof.
  split; [reflexivity |]. split; [reflexivity |].
  apply (convert_identity_on_basis elements); [intros s | | ]; reflexivity.
Defined.

(** ** Where the specification and the code differ *)

(** C5. For the conjunction of the variables q and r, [to_implies_false]
    does not return the double negation (((q->(r->F))->F)->F). *)
Lemma to_implies_false_and_not_double_negation :
  to_implies_false (Binary "&" (Nullary "q") (Nullary "r"))
  ≠ Return
      (Binary "->"
         (Binary "->"
            (Binary "->" (Nullary "q") (Binary "->" (Nullary "r") (Nullary "F")))
            (Nullary "F"))
         (Nullary "F")).
Proof. vm_compute. discriminate. Qed.

(** C6. For the variables q and r, with OR = NAND(NAND(q,q), NAND(r,r)) and
    NOT_ANDab = NAND(q,r), [to_nand] returns neither
    NAND(NAND(OR, NOT_ANDab), NAND(OR, NOT_ANDab)) for the exclusive or nor
    NAND(OR, NOT_ANDab) for the equivalence. *)
Lemma to_nand_xor_iff_not_over_single_nand :
  to_nand elements (Binary "+" (Nullary "q") (Nullary "r"))
  ≠ Return
      (Nand.nand
         (Nand.nand
            (Nand.nand (Nand.nand (Nullary "q") (Nullary "q"))
               (Nand.nand (Nullary "r") (Nullary "r")))
            (Nand.nand (Nullary "q") (Nullary "r")))
         (Nand.nand
            (Nand.nand (Nand.nand (Nullary "q") (Nullary "q"))
               (Nand.nand (Nullary "r") (Nullary "r")))
            (Nand.nand (Nullary "q") (Nullary "r")))) ∧
  to_nand elements (Binary "<->" (Nullary "q") (Nullary "r"))
  ≠ Return
      (Nand.nand
         (Nand.nand (Nand.nand (Nullary "q") (Nullary "q"))
            (Nand.nand (Nullary "r") (Nullary "r")))
         (Nand.nand (Nullary "q") (Nullary "r"))).
Proof. split; vm_compute; discriminate. Qed.

(** ** The scenarios of the specification *)

Example to_not_and_or_implies :
  to_not_and_or elements (Binary "->" (Nullary "p") (Nullary "q"))
  = Return (Binary "|" (Unary "~" (Nullary "p")) (Nullary "q")).
Proof. reflexivity. Qed.

Example to_nand_not :
  to_nand elements (Unary "~" (Nullary "p"))
  = Return (Nand.nand (Nullary "p") (Nullary "p")).
Proof. reflexivity. Qed.

Example to_not_and_disjunction :
  to_not_and elements (Binary "|" (Nullary "p") (Nullary "q"))
  = Return (Unary "~" (Binary "&" (Unary "~" (Nullary "p")) (Unary "~" (Nullary "q")))).
Proof. reflexivity. Qed.

Example to_not_and_or_false :
  to_not_and_or elements (Nullary "F")
  = Return (Binary "&" (Nullary "p") (Unary "~" (Nullary "p"))).
Proof. reflexivity. Qed.

(** Outside the well-formed formulas the exceptions do occur: a binary node
    with an unknown root label fails the final assertion, and a negation
    without operand has no [first]. *)
Example unknown_root_label :
  to_not_and_or elements (Binary "^" (Nullary "p") (Nullary "q"))
  = Raise AssertionError.
Proof. reflexivity. Qed.

Example negation_without_operand :
  to_implies_false (Nullary "~") = Raise AttributeError.
Proof. reflexivity. Qed.

(** ** Instances of the further properties *)

Lemma convert_result_well_formed_witness :
  well_formed (Binary "+" (Nullary "q") (Nullary "F")) = true ∧
  convert elements NOT_AND (Binary "+" (Nullary "q") (Nullary "F"))
  = Return
      (Binary "&"
         (Unary "~"
            (Binary "&" (Unary "~" (Nullary "q"))
               (Unary "~" (Binary "&" (Nullary "p") (Unary "~" (Nullary "p"))))))
         (Unary "~"
            (Binary "&" (Nullary "q")
               (Binary "&" (Nullary "p") (Unary "~" (Nullary "p")))))) ∧
  well_formed
    (Binary "&"
       (Unary "~"
          (Binary "&" (Unary "~" (Nullary "q"))
             (Unary "~" (Binary "&" (Nullary "p") (Unary "~" (Nullary "p"))))))
       (Unary "~"
          (Binary "&" (Nullary "q")
             (Binary "&" (Nullary "p") (Unary "~" (Nullary "p"))))))
  = true.
Proof.
  split; [reflexivity |]. split; [reflexivity |].
  apply (convert_result_well_formed elements (λ s, reflexivity _) NOT_AND
           (Binary "+" (Nullary "q") (Nullary "F")));
    reflexivity.
Defined.

Lemma convert_result_fixed_witness :
  basis_operators NOT_AND ⊆ basis_operators NOT_AND_OR ∧
  well_formed (Binary "->" (Nullary "q") (Nullary "r")) = true ∧
  convert elements NOT_AND (Binary "->" (Nullary "q") (Nullary "r"))
  = Return (Unary "~" (Binary "&" (Nullary "q") (Unary "~" (Nullary "r")))) ∧
  convert elements NOT_AND_OR
    (Unary "~" (Binary "&" (Nullary "q") (Unary "~" (Nullary "r"))))
  = Return (Unary "~" (Binary "&" (Nullary "q") (Unary "~" (Nullary "r")))).
Proof.
  assert (basis_operators NOT_AND ⊆ basis_operators NOT_AND_OR) as Hsub.
  { simpl. intros o Ho. rewrite !elem_of_cons in *. tauto. }
  split; [exact Hsub |]. split; [reflexivity |]. split; [reflexivity |].
  apply (convert_result_fixed elements (λ s, reflexivity _) NOT_AND NOT_AND_OR
           (Binary "->" (Nullary "q") (Nullary "r")));
    [exact Hsub | reflexivity | reflexivity].
Defined.

Lemma convert_variables_witness :
  NAND ≠ IMPLIES_FALSE ∧
  well_formed (Binary "|" (Nullary "q") (Nullary "T")) = true ∧
  ∃ g,
    convert elements NAND (Binary "|" (Nullary "q") (Nullary "T")) = Return g ∧
    variables g
    = variables (Binary "|" (Nullary "q") (Nullary "T"))
      ∪ (if existsb is_constant (operators (Binary "|" (Nullary "q") (Nullary "T")))
         then {[ "p" ]} else ∅).
Proof.
  split; [discriminate |]. split; [reflexivity |].
  apply (convert_variables elements (λ s, reflexivity _) NAND);
    [discriminate | reflexivity].
Defined.

Lemma to_implies_false_same_variables_witness :
  well_formed (Binary "+" (Nullary "T") (Unary "~" (Nullary "q"))) = true ∧
  ∃ g,
    to_implies_false (Binary "+" (Nullary "T") (Unary "~" (Nullary "q")))
    = Return g ∧
    variables g = variables (Binary "+" (Nullary "T") (Unary "~" (Nullary "q"))) ∧
    ∀ model : gmap string bool,
      evaluate g model
      = evaluate (Binary "+" (Nullary "T") (Unary "~" (Nullary "q"))) model.
Proof.
  split; [reflexivity |].
  apply to_implies_false_same_variables. reflexivity.
Defined.

Lemma convert_independent_of_iteration_order_witness :
  (∀ s : gset string, elements s ≡ₚ elements s) ∧
  (∀ s : gset string, reverse (elements s) ≡ₚ elements s) ∧
  well_formed (Binary "&" (Binary "|" (Nullary "r") (Nullary "q")) (Nullary "F"))
  = true ∧
  convert elements IMPLIES_NOT
    (Binary "&" (Binary "|" (Nullary "r") (Nullary "q")) (Nullary "F"))
  = convert (λ s, reverse (elements s)) IMPLIES_NOT
      (Binary "&" (Binary "|" (Nullary "r") (Nullary "q")) (Nullary "F")).
Proof.
  split; [intros s; reflexivity |].
  split; [intros s; apply reverse_Permutation |].
  split; [reflexivity |].
  apply convert_independent_of_iteration_order;
    [intros s; reflexivity | intros s; apply reverse_Permutation | reflexivity].
Defined.

Lemma unknown_label_fails_assertion_witness :
  is_variable "^" = false ∧ is_constant "^" = false ∧
  is_unary "^" = false ∧ is_binary "^" = false ∧
  convert elements NAND (Nullary "q") = Return (Nullary "q") ∧
  convert elements NAND (Nullary "r") = Return (Nullary "r") ∧
  convert elements NAND (Binary "^" (Nullary "q") (Nullary "r"))
  = Raise AssertionError.
Proof.
  repeat (split; [reflexivity |]).
  apply (unknown_label_fails_assertion elements NAND "^"
           (Nullary "q") (Nullary "r") (Nullary "q") (Nullary "r"));
    reflexivity.
Defined.

Lemma implies_not_helpers_evaluate_witness :
  evaluate (ImpliesNot.make_and (Nullary "q") (Nullary "r"))
    {[ "q" := true; "r" := false ]}
  = (x ← evaluate (Nullary "q") {[ "q" := true; "r" := false ]};
     y ← evaluate (Nullary "r") {[ "q" := true; "r" := false ]};
     Some (x && y)) ∧
  evaluate (ImpliesNot.make_or (Nullary "q") (Nullary "r"))
    {[ "q" := true; "r" := false ]}
  = (x ← evaluate (Nullary "q") {[ "q" := true; "r" := false ]};
     y ← evaluate (Nullary "r") {[ "q" := true; "r" := false ]};
     Some (x || y)).
Proof. apply implies_not_helpers_evaluate. Defined.

Lemma implies_false_helpers_evaluate_witness :
  evaluate (ImpliesFalse.make_not (Nullary "q")) {[ "q" := true; "r" := false ]}
  = negb <$> evaluate (Nullary "q") {[ "q" := true; "r" := false ]} ∧
  evaluate (ImpliesFalse.make_and (Nullary "q") (Nullary "r"))
    {[ "q" := true; "r" := false ]}
  = (x ← evaluate (Nullary "q") {[ "q" := true; "r" := false ]};
     y ← evaluate (Nullary "r") {[ "q" := true; "r" := false ]};
     Some (x && y)) ∧
  evaluate (ImpliesFalse.make_or (Nullary "q") (Nullary "r"))
    {[ "q" := true; "r" := false ]}
  = (x ← evaluate (Nullary "q") {[ "q" := true; "r" := false ]};
     y ← evaluate (Nullary "r") {[ "q" := true; "r" := false ]};
     Some (x || y)).
Proof. apply implies_false_helpers_evaluate. Defined.

Lemma convert_chain_witness :
  well_formed (Binary "<->" (Nullary "q") (Nullary "T")) = true ∧
  ∃ g h,
    convert elements NOT_AND_OR (Binary "<->" (Nullary "q") (Nullary "T"))
    = Return g ∧
    convert elements NAND g = Return h ∧
    operators h ⊆ basis_operators NAND ∧
    ∀ model : gmap string bool,
      variables (Binary "<->" (Nullary "q") (Nullary "T")) ⊆ dom model →
      variables g ⊆ dom model →
      variables h ⊆ dom model →
      ∃ v,
        evaluate (Binary "<->" (Nullary "q") (Nullary "T")) model = Some v ∧
        evaluate h model = Some v.
Proof.
  split; [reflexivity |].
  apply (convert_chain elements (λ s, reflexivity _) NOT_AND_OR NAND).
  reflexivity.
Defined.

Lemma convert_never_shrinks_witness :
  well_formed (Unary "~" (Unary "~" (Nullary "q"))) = true ∧
  ∃ g,
    convert elements NAND (Unary "~" (Unary "~" (Nullary "q"))) = Return g ∧
    (nodes (Unary "~" (Unary "~" (Nullary "q"))) ≤ nodes g)%nat ∧
    (height (Unary "~" (Unary "~" (Nullary "q"))) ≤ height g)%nat.
Proof.
  split; [reflexivity |].
  apply (convert_never_shrinks elements (λ s, reflexivity _) NAND).
  reflexivity.
Defined.

Lemma convert_height_witness :
  well_formed (Binary "+" (Nullary "q") (Binary "<->" (Nullary "r") (Nullary "F")))
  = true ∧
  ∃ g,
    convert elements IMPLIES_NOT
      (Binary "+" (Nullary "q") (Binary "<->" (Nullary "r") (Nullary "F")))
    = Return g ∧
    (height g
     ≤ 7 * height (Binary "+" (Nullary "q") (Binary "<->" (Nullary "r") (Nullary "F")))
       + 2)%nat.
Proof.
  split; [reflexivity |].
  apply (convert_height elements (λ s, reflexivity _) IMPLIES_NOT).
  reflexivity.
Defined.

Lemma to_nand_negations_witness :
  is_variable "q" = true ∧
  ∃ g,
    to_nand elements (Nat.iter 3 (Unary "~") (Nullary "q")) = Return g ∧
    nodes g = (2 ^ (3 + 1) - 1)%nat.
Proof.
  split; [reflexivity |].
  apply (to_nand_negations elements 3 "q"). reflexivity.
Defined.
